(** * DTS6012M UART distance sensor: configuration adapter

    A shallow embedding of [components/dts6012m_uart/sensor.py]: the
    configuration values handed to the adapter, Python's lookup errors,
    and [validate_uart_config] with the schema objects around it.  The
    definitions come first, the properties proved of them follow. *)

From Stdlib Require Import ZArith NArith Ascii String Lia.
From stdpp Require Import base option strings gmap list.

Set Warnings "-register-all".
Set Default Proof Using "Type".
Local Open Scope Z_scope.

(** ** Configuration values *)

(** What a parsed YAML document holds: [None], booleans, integers, strings,
    lists, and dictionaries with string keys.  Floating-point numbers are
    left out of the model. *)
Inductive value : Type :=
  | VNone
  | VBool (b : bool)
  | VInt (n : Z)
  | VStr (s : string)
  | VList (l : list value)
  | VDict (d : gmap string value).

Abbreviation dict := (gmap string value).

(** ** Exceptions and results *)

(** [Invalid] is the host's [cv.Invalid]; the other three are Python's
    built-in lookup errors. *)
Inductive exn : Type :=
  | Invalid (msg : string)
  | KeyError (key : string)
  | TypeError
  | AttributeError.

Inductive result (A : Type) : Type :=
  | Return (a : A)
  | Raise (e : exn).
Arguments Return {A} a.
Arguments Raise {A} e.

#[global] Instance result_ret : MRet result := @Return.
#[global] Instance result_bind : MBind result := λ A B f r,
  match r with
  | Return a => f a
  | Raise e => Raise e
  end.

(** The exception a call ended with, [None] for a normal return. *)
Definition raised {A} (r : result A) : option exn :=
  match r with
  | Return _ => None
  | Raise e => Some e
  end.

(** ** Python operations used by the validator *)

(** [bool] is a subclass of [int]: [True == 1], [False == 0]. *)
Definition as_int (x : value) : option Z :=
  match x with
  | VBool b => Some (Z.b2z b)
  | VInt n => Some n
  | _ => None
  end.

(** [x != n] for an integer literal [n]. *)
Definition ne_int (x : value) (n : Z) : bool :=
  match as_int x with
  | Some m => negb (m =? n)
  | None => true
  end.

(** [x != s] for a string literal [s]. *)
Definition ne_str (x : value) (s : string) : bool :=
  match x with
  | VStr t => negb (String.eqb t s)
  | _ => true
  end.

(** [d[k]] on a dictionary: [KeyError] when the key is missing. *)
Definition dict_getitem (d : dict) (k : string) : result value :=
  match d !! k with
  | Some v => Return v
  | None => Raise (KeyError k)
  end.

(** [x[k]] with a string key [k], for any value [x]: strings and lists take
    integer indices only, and [None], booleans and integers are not
    subscriptable, so each of those raises [TypeError]. *)
Definition getitem (x : value) (k : string) : result value :=
  match x with
  | VDict d => dict_getitem d k
  | _ => Raise TypeError
  end.

(** [x.get(k, dflt)]: only dictionaries have the method. *)
Definition get (x : value) (k : string) (dflt : value) : result value :=
  match x with
  | VDict d => Return (default dflt (d !! k))
  | _ => Raise AttributeError
  end.

(** [module.NAME], given what the module binds under that name:
    [AttributeError] when it binds nothing. *)
Definition attr (binding : option string) : result string :=
  match binding with
  | Some s => Return s
  | None => Raise AttributeError
  end.

(** ** Host library: dictionary schemas

    The adapter builds its schema with the host's [cv], [sensor] and [uart]
    modules, none of which is part of this repository.  They are modelled as
    far as the adapter uses them: which keys a schema declares, with which
    default, and how [extend] and [All] combine their arguments. *)
Module cv.

(** A key of a dictionary schema: required, or optional with or without a
    default value.  The validators of the values are not modelled. *)
Inductive marker : Type :=
  | Required
  | Optional (dflt : option value).

(** [cv.GenerateID(key)] is an optional key whose default is [None]; the
    host replaces it by a generated id. *)
Definition GenerateID : marker := Optional (Some VNone).

Abbreviation Schema := (gmap string marker).

(** [s.extend(other)]: the entries of [other] are added to those of [s] and
    replace the ones with the same key. *)
Definition extend (s other : Schema) : Schema := other ∪ s.

Definition default_of (m : marker) : option value :=
  match m with
  | Required => None
  | Optional dflt => dflt
  end.

(** The value a schema supplies for key [k] when the configuration has
    none. *)
Definition schema_default (s : Schema) (k : string) : option value :=
  s !! k ≫= default_of.

(** The configuration after the schema has filled in its defaults: an entry
    of the configuration stays, a missing one takes the declared default. *)
Definition fill_defaults (s : Schema) (config : dict) : dict :=
  config ∪ omap default_of s.

Definition CONF_SETUP_PRIORITY : string := "setup_priority".
Definition CONF_UPDATE_INTERVAL : string := "update_interval".

Definition COMPONENT_SCHEMA : Schema :=
  {[ CONF_SETUP_PRIORITY := Optional None ]}.

(** [cv.polling_component_schema(default_update_interval)]. *)
Definition polling_component_schema (default_update_interval : string) : Schema :=
  extend COMPONENT_SCHEMA
    {[ CONF_UPDATE_INTERVAL := Optional (Some (VStr default_update_interval)) ]}.

(** [cv.All(v1, ..., vn)]: the validators run in order, each on the output
    of the one before, and the first exception ends the run. *)
Fixpoint All {A} (validators : list (A → result A)) (v : A) : result A :=
  match validators with
  | [] => Return v
  | f :: rest => v' ← f v; All rest v'
  end.

(** *** Time periods

    An update interval is written as a number followed by a unit.  The
    reader below takes whole numbers and gives the period in microseconds. *)
Definition digit_of (a : ascii) : option N :=
  let n := N_of_ascii a in
  if ((48 <=? n) && (n <=? 57))%N then Some (n - 48)%N else None.

(** The number read so far and the first character that is no digit, with
    what follows it. *)
Fixpoint read_number (acc : N) (s : string) : N * string :=
  match s with
  | EmptyString => (acc, s)
  | String a rest =>
      match digit_of a with
      | Some d => read_number (10 * acc + d)%N rest
      | None => (acc, s)
      end
  end.

Definition microseconds_per (unit : string) : option N :=
  if bool_decide (unit ∈ ["us"; "microseconds"]) then Some 1%N
  else if bool_decide (unit ∈ ["ms"; "milliseconds"]) then Some 1000%N
  else if bool_decide (unit ∈ ["s"; "sec"; "seconds"]) then Some 1000000%N
  else if bool_decide (unit ∈ ["min"; "minutes"]) then Some 60000000%N
  else if bool_decide (unit ∈ ["h"; "hours"]) then Some 3600000000%N
  else if bool_decide (unit ∈ ["d"; "days"]) then Some 86400000000%N
  else None.

Definition time_period (s : string) : option N :=
  match s with
  | EmptyString => None
  | String a _ =>
      _ ← digit_of a;
      let '(n, unit) := read_number 0 s in
      per ← microseconds_per unit;
      Some (n * per)%N
  end.

Definition SECOND : N := 1000000.

End cv.

(** A native class as the code generator names it. *)
Module cg.
Record class_ : Type := {
  namespace : string;
  name : string;
  parents : list string;
}.
End cg.

(** Constants of [esphome.const] the adapter passes on, with the values the
    host gives them. *)
Module const.
Definition CONF_ID : string := "id".
Definition UNIT_METER : string := "m".
Definition ICON_ARROW_EXPAND_VERTICAL : string := "mdi:arrow-expand-vertical".
Definition DEVICE_CLASS_DISTANCE : string := "distance".
Definition STATE_CLASS_MEASUREMENT : string := "measurement".
End const.

Module sensor.

Definition CONF_UNIT_OF_MEASUREMENT : string := "unit_of_measurement".
Definition CONF_ICON : string := "icon".
Definition CONF_ACCURACY_DECIMALS : string := "accuracy_decimals".
Definition CONF_DEVICE_CLASS : string := "device_class".
Definition CONF_STATE_CLASS : string := "state_class".

(** [sensor.sensor_schema(class_, unit_of_measurement=..., icon=...,
    accuracy_decimals=..., device_class=..., state_class=...)]: the sensor
    schema with the generated id (of class [class_], which only the id's
    validator looks at) and each keyword argument turned into the default
    of its option. *)
Definition sensor_schema (class_ : cg.class_)
    (unit_of_measurement icon : string) (accuracy_decimals : Z)
    (device_class state_class : string) : cv.Schema :=
  <[ const.CONF_ID := cv.GenerateID ]>
  (<[ CONF_UNIT_OF_MEASUREMENT := cv.Optional (Some (VStr unit_of_measurement)) ]>
  (<[ CONF_ICON := cv.Optional (Some (VStr icon)) ]>
  (<[ CONF_ACCURACY_DECIMALS := cv.Optional (Some (VInt accuracy_decimals)) ]>
  (<[ CONF_DEVICE_CLASS := cv.Optional (Some (VStr device_class)) ]>
  {[ CONF_STATE_CLASS := cv.Optional (Some (VStr state_class)) ]})))).

End sensor.

(** ** Names imported from the host's [uart] component

    [sensor.py] reads five names from [esphome.components.uart].  Reading
    a name the module does not bind raises [AttributeError], so each of the
    five comes with its binding, if it has one. *)
Module uart.

Class Names : Type := {
  CONF_UART : option string;
  CONF_BAUD_RATE : option string;
  CONF_DATA_BITS : option string;
  CONF_PARITY : option string;
  CONF_STOP_BITS : option string;
}.

(** What the host's module binds: the names of the four settings, and no
    [CONF_UART]. *)
Definition host : Names := {|
  CONF_UART := None;
  CONF_BAUD_RATE := Some "baud_rate";
  CONF_DATA_BITS := Some "data_bits";
  CONF_PARITY := Some "parity";
  CONF_STOP_BITS := Some "stop_bits";
|}.

(** The host's module with the missing name bound to [k] as well. *)
Definition with_CONF_UART (k : string) : Names := {|
  CONF_UART := Some k;
  CONF_BAUD_RATE := Some "baud_rate";
  CONF_DATA_BITS := Some "data_bits";
  CONF_PARITY := Some "parity";
  CONF_STOP_BITS := Some "stop_bits";
|}.

Definition CONF_UART_ID : string := "uart_id".

(** [uart.UART_DEVICE_SCHEMA]: the id of the bus the device sits on,
    generated when the configuration names none. *)
Definition UART_DEVICE_SCHEMA : cv.Schema :=
  {[ CONF_UART_ID := cv.GenerateID ]}.

End uart.

(** ** The adapter's schema *)

(** [DEPENDENCIES] and [AUTO_LOAD]. *)
Definition DEPENDENCIES : list string := ["uart"].
Definition AUTO_LOAD : list string := ["uart"].

(** The handle [dts6012m_uart_ns.class_("DTS6012MUartSensor", ...)]: the
    name of the native class, its namespace and its parent classes. *)
Definition DTS6012MUartSensor : cg.class_ := {|
  cg.namespace := "dts6012m_uart";
  cg.name := "DTS6012MUartSensor";
  cg.parents := ["sensor.Sensor"; "cg.PollingComponent"; "uart.UARTDevice"];
|}.

Definition CONFIG_SCHEMA : cv.Schema :=
  cv.extend
    (cv.extend
      (cv.extend
        (sensor.sensor_schema DTS6012MUartSensor
           const.UNIT_METER
           const.ICON_ARROW_EXPAND_VERTICAL
           3
           const.DEVICE_CLASS_DISTANCE
           const.STATE_CLASS_MEASUREMENT)
        (cv.polling_component_schema "60s"))
      uart.UART_DEVICE_SCHEMA)
    cv.COMPONENT_SCHEMA.

(** ** [validate_uart_config]

    Each [uart.NAME] is read where the source reads it, just before the
    lookup that uses it.  In [uart_config.get(uart.NAME, dflt)] Python
    resolves [get] before [uart.NAME]; either failure is an
    [AttributeError]. *)

Definition validate_uart_config `{N : uart.Names} (config : dict) : result dict :=
  conf_uart ← attr uart.CONF_UART;
  uart_config ← dict_getitem config conf_uart;
  conf_baud_rate ← attr uart.CONF_BAUD_RATE;
  baud_rate ← getitem uart_config conf_baud_rate;
  if ne_int baud_rate 9600 then
    Raise (Invalid "DTS6012M sensor requires 9600 baud rate")
  else
  conf_data_bits ← attr uart.CONF_DATA_BITS;
  data_bits ← get uart_config conf_data_bits (VInt 8);
  if ne_int data_bits 8 then
    Raise (Invalid "DTS6012M sensor requires 8 data bits")
  else
  conf_parity ← attr uart.CONF_PARITY;
  parity ← get uart_config conf_parity (VStr "NONE");
  if ne_str parity "NONE" then
    Raise (Invalid "DTS6012M sensor requires no parity")
  else
  conf_stop_bits ← attr uart.CONF_STOP_BITS;
  stop_bits ← get uart_config conf_stop_bits (VInt 1);
  if ne_int stop_bits 1 then
    Raise (Invalid "DTS6012M sensor requires 1 stop bit")
  else
  Return config.

(** The four messages, by name. *)
Definition MSG_BAUD_RATE : string := "DTS6012M sensor requires 9600 baud rate".
Definition MSG_DATA_BITS : string := "DTS6012M sensor requires 8 data bits".
Definition MSG_PARITY : string := "DTS6012M sensor requires no parity".
Definition MSG_STOP_BITS : string := "DTS6012M sensor requires 1 stop bit".

(** [FINAL_CONFIG_SCHEMA = cv.All(CONFIG_SCHEMA, validate_uart_config)].
    How the host applies a schema to a configuration is its own business and
    comes in as [call]. *)
Definition FINAL_CONFIG_SCHEMA `{N : uart.Names}
    (call : cv.Schema → dict → result dict) : dict → result dict :=
  cv.All [call CONFIG_SCHEMA; validate_uart_config].

(** ** [to_code]

    The calls [to_code] makes to the code generator, in order; each
    registration gets the new variable and the configuration. *)
Inductive codegen : Type :=
  | new_Pvariable (id : value)
  | register_component (var : value) (config : dict)
  | register_sensor (var : value) (config : dict)
  | register_uart_device (var : value) (config : dict).

Definition to_code (config : dict) : result (list codegen) :=
  var ← dict_getitem config const.CONF_ID;
  Return [new_Pvariable var;
          register_component var config;
          register_sensor var config;
          register_uart_device var config].

(** ** How a call of the validator ends *)
Section verdict.
Context `{N : uart.Names}.

(** The call returns normally. *)
Definition accepts (config : dict) : Prop :=
  ∃ config', validate_uart_config config = Return config'.

(** The call raises [cv.Invalid]. *)
Definition rejects (config : dict) : Prop :=
  ∃ msg, validate_uart_config config = Raise (Invalid msg).

(** Both configurations are accepted, or both are rejected with the same
    [cv.Invalid] message. *)
Definition same_verdict (c1 c2 : dict) : Prop :=
  (accepts c1 ∧ accepts c2)
  ∨ (∃ msg, validate_uart_config c1 = Raise (Invalid msg)
            ∧ validate_uart_config c2 = Raise (Invalid msg)).

End verdict.

(** ** The driver's polling interface

    The driver itself is native code that [sensor.py] names
    ([DTS6012MUartSensor]) and that is not among the sources. *)
Module driver.

(** Modelled from the spec: the driver's [Reading], a distance with three
    decimal places and a monotonic instant.  The distance is kept in
    thousandths of a metre. *)
Record Reading : Type := {
  distanceMillimetres : Z;
  timestamp : N;
}.

(** Modelled from the spec: the fixed accuracy of a [Reading], in decimal
    places. *)
Definition ACCURACY_DECIMALS : Z := 3.

(** Modelled from the spec: the driver's [DriverState], written by the
    frame-processing path and read by the polling interface. *)
Record DriverState : Type := {
  lastReading : option Reading;
  lastUpdate : option N;
}.

(** Modelled from the spec: the polling wrapper's own state, which is
    missing from the sources.  [fresh] says that a frame has been validated
    since the previous poll, [sourceAttached] that there is a byte source to
    read from, [sourceFault] that a poll has found none. *)
Record Driver : Type := {
  state : DriverState;
  fresh : bool;
  sourceAttached : bool;
  sourceFault : bool;
}.

(** Modelled from the spec: what can happen to the driver between two
    polls.  A frame is validated and converted to a [Reading], a frame is
    discarded, the byte source goes away or comes back. *)
Inductive event : Type :=
  | FrameValidated (r : Reading)
  | FrameDiscarded
  | SourceDetached
  | SourceAttached.

Definition is_validated (e : event) : bool :=
  match e with
  | FrameValidated _ => true
  | _ => false
  end.

(** Modelled from the spec: the frame-processing path.  A validated frame
    replaces the last reading; a discarded one leaves no trace. *)
Definition step (d : Driver) (e : event) : Driver :=
  match e with
  | FrameValidated r =>
      {| state := {| lastReading := Some r; lastUpdate := Some (timestamp r) |};
         fresh := true;
         sourceAttached := sourceAttached d;
         sourceFault := sourceFault d |}
  | FrameDiscarded => d
  | SourceDetached =>
      {| state := state d; fresh := fresh d;
         sourceAttached := false; sourceFault := sourceFault d |}
  | SourceAttached =>
      {| state := state d; fresh := fresh d;
         sourceAttached := true; sourceFault := sourceFault d |}
  end.

(** The driver after a sequence of events, the earliest first. *)
Definition run (d : Driver) (events : list event) : Driver :=
  foldl step d events.

(** Modelled from the spec: [poll()], which returns the latest [Reading]
    produced since the previous poll, or none if no frame has been validated
    since; without a byte source it returns none and records the fact.  The
    second component is the driver after the call. *)
Definition poll (d : Driver) : option Reading * Driver :=
  if sourceAttached d then
    (if fresh d then lastReading (state d) else None,
     {| state := state d; fresh := false;
        sourceAttached := true; sourceFault := sourceFault d |})
  else
    (None,
     {| state := state d; fresh := false;
        sourceAttached := false; sourceFault := true |}).

(** Modelled from the spec: a driver that has seen no frame yet. *)
Definition initial : Driver := {|
  state := {| lastReading := None; lastUpdate := None |};
  fresh := false;
  sourceAttached := true;
  sourceFault := false;
|}.

(** Modelled from the spec: the life of a driver as the list of what
    happened to it, the most recent first: an event, or a call of
    [poll()]. *)
Inductive action : Type :=
  | Happens (e : event)
  | Polls.

Definition act (a : action) (d : Driver) : Driver :=
  match a with
  | Happens e => step d e
  | Polls => (poll d).2
  end.

(** The driver after the history [h]. *)
Definition after (h : list action) : Driver := foldr act initial h.

(** Modelled from the spec: the latest [Reading] produced since the
    previous poll, read off the history. *)
Fixpoint latest_since_poll (h : list action) : option Reading :=
  match h with
  | [] => None
  | Polls :: _ => None
  | Happens (FrameValidated r) :: _ => Some r
  | Happens _ :: h' => latest_since_poll h'
  end.

End driver.

(** ** Sample configurations *)
Module sample.

(** The [uart] block of the YAML example in the module docstring. *)
Definition yaml_uart : dict :=
  list_to_map [("tx_pin", VStr "GPIO1"); ("rx_pin", VStr "GPIO3");
               ("baud_rate", VInt 9600); ("data_bits", VInt 8);
               ("parity", VStr "NONE"); ("stop_bits", VInt 1)].

(** The sensor entry of that example, with the [uart] block under the
    [uart] key. *)
Definition yaml_config : dict :=
  list_to_map [("platform", VStr "dts6012m_uart");
               ("name", VStr "Distance Sensor");
               ("id", VStr "distance_sensor");
               ("update_interval", VStr "60s");
               ("uart", VDict yaml_uart)].

(** Only the baud rate is given. *)
Definition baud_only_uart : dict := {[ "baud_rate" := VInt 9600 ]}.
Definition baud_only_config : dict :=
  list_to_map [("name", VStr "Distance Sensor"); ("uart", VDict baud_only_uart)].

(** The baud rate is missing and the data bits are wrong. *)
Definition no_baud_uart : dict := {[ "data_bits" := VInt 7 ]}.
Definition no_baud_config : dict := {[ "uart" := VDict no_baud_uart ]}.
Definition no_baud_named_config : dict :=
  list_to_map [("name", VStr "Distance Sensor"); ("uart", VDict no_baud_uart)].

(** Baud rate and parity are both wrong. *)
Definition fast_even_uart : dict :=
  list_to_map [("baud_rate", VInt 115200); ("parity", VStr "EVEN")].
Definition fast_even_config : dict := {[ "uart" := VDict fast_even_uart ]}.
Definition fast_even_named_config : dict :=
  list_to_map [("name", VStr "Distance Sensor"); ("uart", VDict fast_even_uart)].

(** A sensor entry without an update interval. *)
Definition no_interval_config : dict :=
  list_to_map [("platform", VStr "dts6012m_uart");
               ("name", VStr "Distance Sensor")].

(** A reading of 0.100 m and the driver right after it was produced. *)
Definition reading : driver.Reading :=
  {| driver.distanceMillimetres := 100; driver.timestamp := 5 |}.
Definition driver_with_reading : driver.Driver :=
  driver.step driver.initial (driver.FrameValidated reading).

(** What may happen between two polls when no frame gets through. *)
Definition quiet_events : list driver.event :=
  [driver.FrameDiscarded; driver.SourceDetached; driver.SourceAttached;
   driver.FrameDiscarded].

End sample.

(** A host that applies a schema by filling in its defaults. *)
Definition call_defaults (s : cv.Schema) (c : dict) : result dict :=
  Return (cv.fill_defaults s c).

(** * Properties *)

(** ** The validator stops at its first name *)

(** The first statement reads [uart.CONF_UART]; with the name unbound the
    call is over before the configuration is looked at. *)
Lemma validate_unbound_uart `{N : uart.Names} (c : dict) :
  uart.CONF_UART = None →
  validate_uart_config c = Raise AttributeError.
Proof. intros Hname. unfold validate_uart_config. by rewrite Hname. Qed.

Lemma validate_host (c : dict) :
  validate_uart_config (N := uart.host) c = Raise AttributeError.
Proof. by apply validate_unbound_uart. Qed.

(** ** The checks behind the first name

    What the rest of the function does when [uart.CONF_UART] is bound to a
    key [k]: the four checks, in source order. *)
Lemma validate_with_CONF_UART (k : string) (c u : dict) (b : value) :
  c !! k = Some (VDict u) →
  u !! "baud_rate" = Some b →
  validate_uart_config (N := uart.with_CONF_UART k) c =
    if ne_int b 9600 then Raise (Invalid MSG_BAUD_RATE)
    else if ne_int (default (VInt 8) (u !! "data_bits")) 8
      then Raise (Invalid MSG_DATA_BITS)
    else if ne_str (default (VStr "NONE") (u !! "parity")) "NONE"
      then Raise (Invalid MSG_PARITY)
    else if ne_int (default (VInt 1) (u !! "stop_bits")) 1
      then Raise (Invalid MSG_STOP_BITS)
    else Return c.
Proof.
  intros Hc Hb. unfold validate_uart_config. simpl.
  unfold dict_getitem. rewrite Hc. simpl.
  unfold dict_getitem. rewrite Hb. simpl.
  by repeat case_match.
Qed.

Example docstring_config_with_CONF_UART :
  validate_uart_config (N := uart.with_CONF_UART "uart") sample.yaml_config
  = Return sample.yaml_config.
Proof. reflexivity. Qed.

Example fast_even_with_CONF_UART :
  validate_uart_config (N := uart.with_CONF_UART "uart") sample.fast_even_config
  = Raise (Invalid "DTS6012M sensor requires 9600 baud rate").
Proof. reflexivity. Qed.

Example no_baud_with_CONF_UART :
  validate_uart_config (N := uart.with_CONF_UART "uart") sample.no_baud_config
  = Raise (KeyError "baud_rate").
Proof. reflexivity. Qed.

(** ** The validator on the host's names *)

(** C1: the configuration of the module docstring has baud rate 9600, 8
    data bits, parity "NONE" and 1 stop bit, and the call does not return
    it: it ends in [AttributeError], since the host's [uart] module binds no
    [CONF_UART]. *)
Theorem docstring_config_AttributeError :
  validate_uart_config (N := uart.host) sample.yaml_config = Raise AttributeError
  ∧ ¬ accepts (N := uart.host) sample.yaml_config.
Proof.
  split; [apply validate_host |].
  intros [c' Hc']. rewrite validate_host in Hc'. discriminate Hc'.
Qed.

(** C3: with baud rate 115200 and parity "EVEN" the call raises no
    [cv.Invalid], with the baud-rate message or any other: it ends in
    [AttributeError] before the first check. *)
Theorem deviating_baud_rate_AttributeError :
  validate_uart_config (N := uart.host) sample.fast_even_config
  = Raise AttributeError
  ∧ ¬ rejects (N := uart.host) sample.fast_even_config.
Proof.
  split; [apply validate_host |].
  intros [msg Hmsg]. rewrite validate_host in Hmsg. discriminate Hmsg.
Qed.


(** C8: a sub-configuration that holds the baud rate 9600 and leaves out
    data bits, parity and stop bits is not accepted: the call ends in
    [AttributeError]. *)
Theorem baud_only_config_AttributeError :
  validate_uart_config (N := uart.host) sample.baud_only_config
  = Raise AttributeError
  ∧ ¬ accepts (N := uart.host) sample.baud_only_config.
Proof.
  split; [apply validate_host |].
  intros [c' Hc']. rewrite validate_host in Hc'. discriminate Hc'.
Qed.

(** C9: without the [uart] key, and without the baud-rate key in the
    [uart] sub-configuration, the call ends in [AttributeError], not in a
    [KeyError] that names the missing key. *)
Theorem missing_key_AttributeError :
  validate_uart_config (N := uart.host) ∅ = Raise AttributeError
  ∧ validate_uart_config (N := uart.host) sample.no_baud_config
    = Raise AttributeError
  ∧ ∀ key, validate_uart_config (N := uart.host) ∅ ≠ Raise (KeyError key)
           ∧ validate_uart_config (N := uart.host) sample.no_baud_config
             ≠ Raise (KeyError key).
Proof. rewrite !validate_host. by repeat split. Qed.

(** C10: two configurations with the same [uart] sub-configuration (baud
    rate 115200, parity "EVEN") are neither both accepted nor both rejected
    with the same [cv.Invalid] message: both calls end in
    [AttributeError]. *)
Theorem agreeing_configs_AttributeError :
  sample.fast_even_config !! "uart" = sample.fast_even_named_config !! "uart"
  ∧ validate_uart_config (N := uart.host) sample.fast_even_config
    = Raise AttributeError
  ∧ validate_uart_config (N := uart.host) sample.fast_even_named_config
    = Raise AttributeError
  ∧ ¬ same_verdict (N := uart.host)
        sample.fast_even_config sample.fast_even_named_config.
Proof.
  split; [reflexivity |]. rewrite !validate_host. do 2 (split; [done |]).
  intros [[[c' Hc'] _] | (msg & Hmsg & _)].
  - rewrite validate_host in Hc'. discriminate Hc'.
  - rewrite validate_host in Hmsg. discriminate Hmsg.
Qed.

(** ** The schema's defaults *)

Lemma extend_lookup (s other : cv.Schema) (k : string) :
  cv.extend s other !! k
  = match other !! k with
    | Some m => Some m
    | None => s !! k
    end.
Proof.
  unfold cv.extend. rewrite lookup_union.
  by destruct (other !! k), (s !! k).
Qed.

Lemma fill_defaults_lookup (s : cv.Schema) (c : dict) (k : string) :
  cv.fill_defaults s c !! k
  = match c !! k with
    | Some v => Some v
    | None => cv.schema_default s k
    end.
Proof.
  unfold cv.fill_defaults, cv.schema_default.
  rewrite lookup_union, lookup_omap.
  by destruct (c !! k), (s !! k ≫= cv.default_of).
Qed.

(** Extending a schema by one that does not declare [k] leaves the default
    of [k] as it was. *)
Lemma schema_default_extend_other (s other : cv.Schema) (k : string) :
  other !! k = None →
  cv.schema_default (cv.extend s other) k = cv.schema_default s k.
Proof. intros Hk. unfold cv.schema_default. by rewrite extend_lookup, Hk. Qed.

(** Extending a schema by one with a default for [k] makes that the default
    of [k]. *)
Lemma schema_default_extend_declared (s other : cv.Schema) (k : string) (v : value) :
  cv.schema_default other k = Some v →
  cv.schema_default (cv.extend s other) k = Some v.
Proof.
  unfold cv.schema_default. rewrite extend_lookup.
  by destruct (other !! k).
Qed.

Lemma polling_component_schema_default (interval : string) :
  cv.schema_default (cv.polling_component_schema interval) cv.CONF_UPDATE_INTERVAL
  = Some (VStr interval).
Proof. reflexivity. Qed.

(** C5: the update interval the schema supplies when the configuration
    names none is "60s", which is 60 seconds; a configuration that names one
    keeps its own. *)
Theorem default_update_interval :
  cv.schema_default CONFIG_SCHEMA cv.CONF_UPDATE_INTERVAL = Some (VStr "60s")
  ∧ cv.time_period "60s" = Some (60 * cv.SECOND)%N
  ∧ (∀ c : dict,
       c !! cv.CONF_UPDATE_INTERVAL = None →
       cv.fill_defaults CONFIG_SCHEMA c !! cv.CONF_UPDATE_INTERVAL
       = Some (VStr "60s"))
  ∧ (∀ (c : dict) (v : value),
       c !! cv.CONF_UPDATE_INTERVAL = Some v →
       cv.fill_defaults CONFIG_SCHEMA c !! cv.CONF_UPDATE_INTERVAL = Some v).
Proof.
  assert (cv.schema_default CONFIG_SCHEMA cv.CONF_UPDATE_INTERVAL
          = Some (VStr "60s")) as Hdefault.
  { unfold CONFIG_SCHEMA.
    rewrite !schema_default_extend_other by reflexivity.
    rewrite (schema_default_extend_declared _ _ _ (VStr "60s"));
      [done | apply polling_component_schema_default]. }
  split; [exact Hdefault |]. split; [reflexivity |]. split.
  - intros c Hc. by rewrite fill_defaults_lookup, Hc.
  - intros c v Hc. by rewrite fill_defaults_lookup, Hc.
Qed.

Lemma default_update_interval_witness :
  sample.no_interval_config !! "update_interval" = None
  ∧ cv.fill_defaults CONFIG_SCHEMA sample.no_interval_config !! "update_interval"
    = Some (VStr "60s")
  ∧ sample.yaml_config !! "update_interval" = Some (VStr "60s")
  ∧ cv.fill_defaults CONFIG_SCHEMA sample.yaml_config !! "update_interval"
    = Some (VStr "60s").
Proof.
  split; [reflexivity |]. split.
  { apply (proj1 (proj2 (proj2 default_update_interval))
             sample.no_interval_config).
    reflexivity. }
  split; [reflexivity |].
  apply (proj2 (proj2 (proj2 default_update_interval))
           sample.yaml_config (VStr "60s")).
  reflexivity.
Defined.

(** C6: the schema declares the unit of measurement "m" (metres) and 3
    accuracy decimals, the precision of a [Reading]'s distance. *)
Theorem unit_and_accuracy :
  cv.schema_default CONFIG_SCHEMA sensor.CONF_UNIT_OF_MEASUREMENT
  = Some (VStr const.UNIT_METER)
  ∧ cv.schema_default CONFIG_SCHEMA sensor.CONF_ACCURACY_DECIMALS
    = Some (VInt driver.ACCURACY_DECIMALS)
  ∧ driver.ACCURACY_DECIMALS = 3.
Proof.
  unfold CONFIG_SCHEMA.
  rewrite !schema_default_extend_other by reflexivity.
  by repeat split.
Qed.

(** ** The final schema and the code generator *)
Section final.
Context `{N : uart.Names}.
Variable call : cv.Schema → dict → result dict.

Lemma FINAL_CONFIG_SCHEMA_unfold (c : dict) :
  FINAL_CONFIG_SCHEMA call c = call CONFIG_SCHEMA c ≫= validate_uart_config.
Proof.
  unfold FINAL_CONFIG_SCHEMA. simpl.
  destruct (call CONFIG_SCHEMA c) as [c'|e]; simpl; [| done].
  by destruct (validate_uart_config c').
Qed.

(** [to_code] looks up the id and checks nothing: with an id present it
    makes its four calls whatever the [uart] settings are. *)
Lemma to_code_calls (c : dict) (var : value) :
  c !! const.CONF_ID = Some var →
  to_code c = Return [new_Pvariable var;
                      register_component var c;
                      register_sensor var c;
                      register_uart_device var c].
Proof. intros Hid. unfold to_code, dict_getitem. by rewrite Hid. Qed.

End final.

(** C2: whatever the base schema returns, the final schema does not answer
    with [cv.Invalid]: the validator it runs next ends in [AttributeError],
    for a configuration with wrong UART settings as for any other. *)
Theorem FINAL_CONFIG_SCHEMA_AttributeError
    (call : cv.Schema → dict → result dict) (c c0 : dict) :
  call CONFIG_SCHEMA c = Return c0 →
  FINAL_CONFIG_SCHEMA (N := uart.host) call c = Raise AttributeError
  ∧ ∀ msg, FINAL_CONFIG_SCHEMA (N := uart.host) call c ≠ Raise (Invalid msg).
Proof.
  intros Hbase. rewrite FINAL_CONFIG_SCHEMA_unfold, Hbase. simpl.
  rewrite validate_host. by split.
Qed.

Lemma FINAL_CONFIG_SCHEMA_AttributeError_witness :
  call_defaults CONFIG_SCHEMA sample.no_interval_config
  = Return (cv.fill_defaults CONFIG_SCHEMA sample.no_interval_config)
  ∧ FINAL_CONFIG_SCHEMA (N := uart.host) call_defaults sample.no_interval_config
    = Raise AttributeError.
Proof.
  split; [reflexivity |].
  apply (proj1 (FINAL_CONFIG_SCHEMA_AttributeError call_defaults
                  sample.no_interval_config
                  (cv.fill_defaults CONFIG_SCHEMA sample.no_interval_config)
                  eq_refl)).
Defined.

(** ** Polling *)

Lemma poll_clears_fresh (d : driver.Driver) :
  driver.fresh (driver.poll d).2 = false.
Proof. unfold driver.poll. by destruct (driver.sourceAttached d). Qed.

(** [poll] reads the driver state and leaves it as it was. *)
Lemma poll_keeps_state (d : driver.Driver) :
  driver.state (driver.poll d).2 = driver.state d.
Proof. unfold driver.poll. by destruct (driver.sourceAttached d). Qed.

Lemma poll_stale (d : driver.Driver) :
  driver.fresh d = false → (driver.poll d).1 = None.
Proof.
  intros Hd. unfold driver.poll. rewrite Hd.
  by destruct (driver.sourceAttached d).
Qed.

Lemma step_stays_stale (d : driver.Driver) (e : driver.event) :
  driver.is_validated e = false →
  driver.fresh d = false →
  driver.fresh (driver.step d e) = false.
Proof. by destruct e. Qed.

Lemma run_stays_stale (events : list driver.event) (d : driver.Driver) :
  forallb (λ e, negb (driver.is_validated e)) events = true →
  driver.fresh d = false →
  driver.fresh (driver.run d events) = false.
Proof.
  unfold driver.run. revert d.
  induction events as [|e events IH]; intros d Hev Hd; simpl in *; [done |].
  apply andb_true_iff in Hev as [He Hev]. apply negb_true_iff in He.
  apply IH; [done |]. by apply step_stays_stale.
Qed.

(** C7: after a poll, whatever happens to the driver short of a frame being
    validated (nothing at all, frames discarded, the byte source going or
    coming), the next poll returns none. *)
Theorem poll_twice_none (d : driver.Driver) (events : list driver.event) :
  forallb (λ e, negb (driver.is_validated e)) events = true →
  (driver.poll (driver.run (driver.poll d).2 events)).1 = None.
Proof.
  intros Hev. apply poll_stale, run_stays_stale; [done |].
  apply poll_clears_fresh.
Qed.

Lemma poll_twice_none_witness :
  forallb (λ e, negb (driver.is_validated e)) sample.quiet_events = true
  ∧ (driver.poll sample.driver_with_reading).1 = Some sample.reading
  ∧ (driver.poll (driver.run (driver.poll sample.driver_with_reading).2
                    sample.quiet_events)).1 = None.
Proof.
  split; [reflexivity |]. split; [reflexivity |].
  apply (poll_twice_none sample.driver_with_reading sample.quiet_events).
  reflexivity.
Defined.

(** What [poll] hands out is the latest reading of the history since the
    previous poll. *)
Lemma fresh_reading_latest (h : list driver.action) :
  (if driver.fresh (driver.after h)
   then driver.lastReading (driver.state (driver.after h))
   else None)
  = driver.latest_since_poll h.
Proof.
  induction h as [|[e|] h IH]; simpl.
  - done.
  - destruct e; simpl; done.
  - by rewrite poll_clears_fresh.
Qed.

Lemma poll_returns_latest (h : list driver.action) :
  (driver.poll (driver.after h)).1
  = if driver.sourceAttached (driver.after h)
    then driver.latest_since_poll h
    else None.
Proof.
  rewrite <- fresh_reading_latest. unfold driver.poll.
  by destruct (driver.sourceAttached (driver.after h)).
Qed.

(** A frame validated between the two polls is what the second poll
    returns. *)
Lemma poll_after_frame (d : driver.Driver) (r : driver.Reading) :
  driver.sourceAttached d = true →
  (driver.poll (driver.step (driver.poll d).2 (driver.FrameValidated r))).1
  = Some r.
Proof. intros Hd. unfold driver.poll. by rewrite Hd. Qed.

Example time_period_examples :
  cv.time_period "60s" = Some 60000000%N
  ∧ cv.time_period "1min" = Some 60000000%N
  ∧ cv.time_period "500ms" = Some 500000%N
  ∧ cv.time_period "s" = None
  ∧ cv.time_period "60" = None.
Proof. by repeat split. Qed.

(** * Further properties of the adapter *)

(** X1: on the names the host's [uart] module binds, every call of the
    validator ends in [AttributeError], whatever the configuration: none is
    accepted, none is rejected with [cv.Invalid], and no [KeyError] or
    [TypeError] is raised. *)
Theorem validate_never_passes_CONF_UART (c : dict) :
  validate_uart_config (N := uart.host) c = Raise AttributeError
  ∧ ¬ accepts (N := uart.host) c
  ∧ ¬ rejects (N := uart.host) c
  ∧ (∀ key, validate_uart_config (N := uart.host) c ≠ Raise (KeyError key))
  ∧ validate_uart_config (N := uart.host) c ≠ Raise TypeError.
Proof.
  unfold accepts, rejects. rewrite validate_host.
  repeat split; try done; by intros [? ?].
Qed.

(** X6: the final schema returns no configuration, whatever the base
    schema does: an exception of the base schema is the final schema's, and
    a configuration the base schema returns ends in the validator's
    [AttributeError]. *)
Theorem FINAL_CONFIG_SCHEMA_never_returns
    (call : cv.Schema → dict → result dict) (c : dict) :
  FINAL_CONFIG_SCHEMA (N := uart.host) call c
  = match call CONFIG_SCHEMA c with
    | Return _ => Raise AttributeError
    | Raise e => Raise e
    end
  ∧ ∀ c', FINAL_CONFIG_SCHEMA (N := uart.host) call c ≠ Return c'.
Proof.
  rewrite FINAL_CONFIG_SCHEMA_unfold.
  destruct (call CONFIG_SCHEMA c) as [c0|e]; simpl;
    [rewrite validate_host |]; by split.
Qed.

(** ** More of the schema's defaults *)

(** X8: besides unit and accuracy, the schema makes the icon, the device
    class and the state class passed to [sensor_schema] the defaults of
    their options; none of the schemas added with [extend] replaces them. *)
Theorem presentation_defaults :
  cv.schema_default CONFIG_SCHEMA sensor.CONF_ICON
  = Some (VStr const.ICON_ARROW_EXPAND_VERTICAL)
  ∧ cv.schema_default CONFIG_SCHEMA sensor.CONF_DEVICE_CLASS
    = Some (VStr const.DEVICE_CLASS_DISTANCE)
  ∧ cv.schema_default CONFIG_SCHEMA sensor.CONF_STATE_CLASS
    = Some (VStr const.STATE_CLASS_MEASUREMENT).
Proof.
  unfold CONFIG_SCHEMA.
  rewrite !schema_default_extend_other by reflexivity.
  by repeat split.
Qed.

